(** * The request-handler builder and the fetch helpers

    A shallow embedding of the API helper module of the application: the
    typed controller errors, the [ApiReturns] bodies, [ApiBuilder] with the
    dispatch function that [build] returns, and the outbound helpers
    [fetchGet], [fetchPost], [fetchPut].

    JavaScript objects used as dictionaries are finite maps from property
    names to values.  The builder's table is a mutable object: it lives in
    a heap and the builder, like every dispatch function built from it,
    holds its address. *)

From stdpp Require Import gmap strings list fin_maps.
From Stdlib Require Import ZArith.

#[local] Set Warnings "-register-all".
#[local] Open Scope Z_scope.
#[local] Open Scope string_scope.

(** ** Values *)

(** The classes of error objects that the module tells apart.  The first
    two are declared by the module itself (both extend [Error] directly, so
    no object is an instance of both; an instance of a subclass counts
    under the class it extends); [TypeError] is the class of the error
    raised by a member access on [undefined]; [OtherError] stands for every
    other class, [FetchRequestError] included. *)
Inductive ErrorClass :=
| NotFoundControllerError
| NotImplementedControllerError
| TypeError
| OtherError.

#[global] Instance ErrorClass_eq_dec : EqDecision ErrorClass.
Proof. solve_decision. Defined.

(** JavaScript values, as far as the module looks into them.  Numbers are
    the integer-valued ones (status codes, limits). *)
Inductive JsValue :=
| JsUndefined
| JsNull
| JsBool (b : bool)
| JsNumber (n : Z)
| JsString (s : string)
| JsArray (items : list JsValue)
| JsObject (props : gmap string JsValue)
| JsErrorObject (cls : ErrorClass) (message : string).

(** The own enumerable properties of an object. *)
Abbreviation JsProps := (gmap string JsValue).

(** [new NotFoundControllerError()] and [new NotImplementedControllerError()]:
    the constructors fix the message. *)
Definition new_NotFoundControllerError : JsValue :=
  JsErrorObject NotFoundControllerError "Not Found".
Definition new_NotImplementedControllerError : JsValue :=
  JsErrorObject NotImplementedControllerError "Not Implemented".

(** [error instanceof C] for a caught value, which need not be an object. *)
Definition instanceof (error : JsValue) (C : ErrorClass) : bool :=
  match error with
  | JsErrorObject cls _ => bool_decide (cls = C)
  | _ => false
  end.

(** The outcome of a call or of an awaited promise: a value, or a thrown
    (rejected) error. *)
Inductive Completion (E A : Type) :=
| Normal (a : A)
| Throw (error : E).
Arguments Normal {E A} a.
Arguments Throw {E A} error.

(** [{...target, ...source}]: the properties of [source] are copied over
    those of [target]; on a common key the value of [source] wins. *)
Definition object_spread (target source : JsProps) : JsProps := source ∪ target.

(** ** ApiReturns *)

Module ApiReturns.
Definition ok : JsProps := {[ "ok" := JsBool true ]}.
Definition error : JsProps := {[ "ok" := JsBool false ]}.
Definition notFound : JsProps :=
  <[ "message" := JsString "Not Found" ]> {[ "ok" := JsBool false ]}.
End ApiReturns.

(** ** Requests and responses *)

(** The request of the inbound adapter: [method] may be [undefined];
    [query] and [body] are given by their own enumerable properties, which
    is all that the spread in the dispatch function reads (a body that is
    [undefined] or [null] has none). *)
Record NextApiRequest := {
  method : option string;
  query : JsProps;
  body : JsProps;
}.

(** The response handle of the inbound adapter: [res.status(code)] records
    the status code and [res.json(body)] sends [body] under the current
    status code.  [sent] lists what was sent, oldest first.  Once a body
    has gone out the headers are sent, and [res.json] throws instead of
    sending again. *)
Record NextApiResponse := {
  statusCode : Z;
  sent : list (Z * JsValue);
}.

Definition new_response : NextApiResponse := {| statusCode := 200; sent := [] |}.

Definition status (code : Z) (res : NextApiResponse) : NextApiResponse :=
  {| statusCode := code; sent := sent res |}.

(** [res.headersSent] *)
Definition headersSent (res : NextApiResponse) : bool :=
  match sent res with
  | [] => false
  | _ => true
  end.

(** The error that the handle raises when asked to send a second time. *)
Definition ERR_HTTP_HEADERS_SENT : JsValue :=
  JsErrorObject OtherError
    "Cannot set headers after they are sent to the client".

Definition json (body : JsValue) (res : NextApiResponse)
  : Completion JsValue unit * NextApiResponse :=
  if headersSent res then (Throw ERR_HTTP_HEADERS_SENT, res)
  else (Normal tt,
        {| statusCode := statusCode res;
           sent := sent res ++ [(statusCode res, body)] |}).

(** [res.status(code).json(body)]: how the call completes, and the handle
    afterwards. *)
Definition reply (code : Z) (b : JsValue) (r : NextApiResponse)
  : Completion JsValue JsValue * NextApiResponse :=
  match json b (status code r) with
  | (Normal _, r') => (Normal JsUndefined, r')
  | (Throw error, r') => (Throw error, r')
  end.

(** The handle after [res.status(code).json(body)] has sent the body. *)
Definition respond (code : Z) (b : JsValue) (r : NextApiResponse)
  : NextApiResponse :=
  {| statusCode := code; sent := sent r ++ [(code, b)] |}.

(** [ApiCallbackContext]: the field [res] of the source is the response
    handle, whose state is threaded through the callback. *)
Record ApiCallbackContext := {
  input : JsValue;
  req : NextApiRequest;
}.

(** A validation schema, by its [validate] method. *)
Record ObjectSchema := {
  validate : JsProps → Completion JsValue JsValue;
}.

Record RequestHandler := {
  schema : ObjectSchema;
  callback : ApiCallbackContext → NextApiResponse →
             Completion JsValue JsValue * NextApiResponse;
}.

Inductive ApiMethods := GET | POST | PUT | DELETE | OPTIONS.

Definition ApiMethods_string (m : ApiMethods) : string :=
  match m with
  | GET => "GET" | POST => "POST" | PUT => "PUT"
  | DELETE => "DELETE" | OPTIONS => "OPTIONS"
  end.

(** [req.method as string] used as a property key: [undefined] becomes the
    key ["undefined"]. *)
Definition method_key (req : NextApiRequest) : string :=
  default "undefined" (method req).

(** ** Property lookup on the table object *)

(** The table is created by the object literal [{}], so its prototype is
    [Object.prototype]: a property read that finds no own property goes on
    to the properties every such object inherits. *)
Definition Object_prototype_names : list string :=
  [ "constructor"; "hasOwnProperty"; "isPrototypeOf"; "propertyIsEnumerable";
    "toLocaleString"; "toString"; "valueOf"; "__proto__";
    "__defineGetter__"; "__defineSetter__";
    "__lookupGetter__"; "__lookupSetter__" ].

(** What [requests[key]] evaluates to: a registered entry, an inherited
    member of [Object.prototype] (a function, or the prototype itself for
    ["__proto__"]), or [undefined]. *)
Inductive TableEntry :=
| Registered (request : RequestHandler)
| Inherited (name : string)
| Undefined.

Definition get_property (table : gmap string RequestHandler) (key : string)
  : TableEntry :=
  match table !! key with
  | Some request => Registered request
  | None =>
      if bool_decide (key ∈ Object_prototype_names) then Inherited key
      else Undefined
  end.

(** [!request]: only [undefined] is falsy among the three. *)
Definition falsy (request : TableEntry) : bool :=
  match request with
  | Undefined => true
  | _ => false
  end.

(** ** The exchange monad *)

(** The calls that the body of the dispatch function makes, in order. *)
Inductive Call :=
| CallValidate (candidate : JsProps)
| CallCallback (ctx : ApiCallbackContext)
| CallStatus (code : Z)
| CallJson (body : JsValue).

(** The state of one invocation: the response handle and the calls made so
    far. *)
Record Exchange := {
  res : NextApiResponse;
  calls : list Call;
}.

Definition Async (A : Type) : Type :=
  Exchange → Completion JsValue A * Exchange.

Definition ret {A} (a : A) : Async A := λ x, (Normal a, x).

Definition throw {A} (error : JsValue) : Async A := λ x, (Throw error, x).

Definition bind {A B} (k : A → Async B) (m : Async A) : Async B :=
  λ x, match m x with
       | (Normal a, x') => k a x'
       | (Throw error, x') => (Throw error, x')
       end.

#[global] Instance Async_ret : MRet Async := @ret.
#[global] Instance Async_bind : MBind Async := @bind.

(** The block of a [try] statement, with the [catch] clause left to the
    continuation: the completion of [m] is handed over as a value. *)
Definition try_block {A} (m : Async A) : Async (Completion JsValue A) :=
  λ x, let '(c, x') := m x in (Normal c, x').

Definition log (c : Call) : Async unit :=
  λ x, (Normal tt, {| res := res x; calls := calls x ++ [c] |}).

Definition on_response (f : NextApiResponse → NextApiResponse) : Async unit :=
  λ x, (Normal tt, {| res := f (res x); calls := calls x |}).

(** [await p] for a promise that settles as [c]. *)
Definition await {A} (c : Completion JsValue A) : Async A := λ x, (c, x).

(** A computation that is handed the response handle. *)
Definition with_response {A}
    (f : NextApiResponse → Completion JsValue A * NextApiResponse) : Async A :=
  λ x, let '(c, r) := f (res x) in (c, {| res := r; calls := calls x |}).

(** [res.status(code)] *)
Definition res_status (code : Z) : Async unit :=
  _ ← log (CallStatus code); on_response (status code).

(** [res.json(body)], whose value is [undefined]; it throws when the
    headers are sent. *)
Definition res_json (body : JsValue) : Async JsValue :=
  _ ← log (CallJson body); _ ← with_response (json body); ret JsUndefined.

(** [request.schema]: an inherited member of [Object.prototype] has no
    such property, and reading [validate] from [undefined] raises a
    [TypeError]. *)
Definition request_schema (request : TableEntry) : Async ObjectSchema :=
  match request with
  | Registered r => ret (schema r)
  | _ => throw (JsErrorObject TypeError
                  "Cannot read properties of undefined (reading 'validate')")
  end.

Definition request_callback (request : TableEntry)
  : Async (ApiCallbackContext → NextApiResponse →
           Completion JsValue JsValue * NextApiResponse) :=
  match request with
  | Registered r => ret (callback r)
  | _ => throw (JsErrorObject TypeError "request.callback is not a function")
  end.

(** [await s.validate(candidate)] *)
Definition call_validate (s : ObjectSchema) (candidate : JsProps)
  : Async JsValue :=
  _ ← log (CallValidate candidate);
  await (validate s candidate).

(** [await cb(ctx)]: the callback works on the response handle. *)
Definition call_callback
    (cb : ApiCallbackContext → NextApiResponse →
          Completion JsValue JsValue * NextApiResponse)
    (ctx : ApiCallbackContext) : Async JsValue :=
  _ ← log (CallCallback ctx);
  with_response (cb ctx).

(** ** ApiBuilder *)

(** The heap of table objects: each [new ApiBuilder()] allocates its table
    [{}] at a fresh address. *)
Abbreviation Heap := (gmap nat (gmap string RequestHandler)).

Module ApiBuilder.

(** An instance, by its one field: the address of its table. *)
Record instance := {
  requests : nat;
}.

(** The dispatch function that [build] returns, by the variable it closes
    over. *)
Record closure := {
  captured_requests : nat;
}.

(** The table object at an address. *)
Definition table_at (σ : Heap) (l : nat) : gmap string RequestHandler :=
  default ∅ (σ !! l).

(** [new ApiBuilder()] *)
Definition new (σ : Heap) : instance * Heap :=
  let l := fresh (dom σ) in
  ({| requests := l |}, <[ l := ∅ ]> σ).

(** [this.requests[method] = { schema, callback }; return this] *)
Definition method (this : instance) (m : ApiMethods) (s : ObjectSchema)
    (cb : ApiCallbackContext → NextApiResponse →
          Completion JsValue JsValue * NextApiResponse)
    (σ : Heap) : instance * Heap :=
  let l := requests this in
  (this,
   <[ l := <[ ApiMethods_string m := {| schema := s; callback := cb |} ]>
             (table_at σ l) ]> σ).

Definition post this s cb (σ : Heap) := method this POST s cb σ.
Definition get this s cb (σ : Heap) := method this GET s cb σ.
Definition put this s cb (σ : Heap) := method this PUT s cb σ.

(** [const requests = this.requests; return async function handler ...] *)
Definition build (this : instance) (σ : Heap) : closure * Heap :=
  ({| captured_requests := requests this |}, σ).

(** The body of the dispatch function, for the table object that the
    captured variable points to when the function runs. *)
Definition handler_body (table : gmap string RequestHandler)
    (req : NextApiRequest) : Async JsValue :=
  let request := get_property table (method_key req) in
  if falsy request then
    _ ← res_status 405; res_json (JsObject ApiReturns.error)
  else
    validated ← try_block
      (s ← request_schema request;
       call_validate s (object_spread (object_spread ∅ (query req)) (body req)));
    match validated with
    | Throw error =>
        _ ← res_status 400;
        res_json (JsObject (<[ "error" := error ]>
                              (object_spread ∅ ApiReturns.error)))
    | Normal input =>
        called ← try_block
          (cb ← request_callback request;
           call_callback cb {| input := input; req := req |});
        match called with
        | Normal result => ret result
        | Throw error =>
            if instanceof error NotFoundControllerError then
              _ ← res_status 404; res_json (JsObject ApiReturns.notFound)
            else if instanceof error NotImplementedControllerError then
              _ ← res_status 405; res_json (JsObject ApiReturns.error)
            else
              _ ← res_status 500; res_json (JsObject ApiReturns.error)
        end
    end.

(** One invocation [handler(req, res)] in heap [σ]: the completion of the
    returned promise, the response handle afterwards, and the calls the
    body made. *)
Definition invoke (table : gmap string RequestHandler)
    (req : NextApiRequest) (res0 : NextApiResponse)
  : Completion JsValue JsValue * NextApiResponse * list Call :=
  let '(c, x) := handler_body table req {| res := res0; calls := [] |} in
  (c, res x, calls x).

Definition handler (h : closure) (σ : Heap) (req : NextApiRequest)
    (res0 : NextApiResponse)
  : Completion JsValue JsValue * NextApiResponse * list Call :=
  invoke (table_at σ (captured_requests h)) req res0.

End ApiBuilder.

(** ** Reading the log *)

(** The status codes that the body of the dispatch function set, and the
    bodies that it handed to [res.json]. *)
Definition statuses_set (log : list Call) : list Z :=
  omap (λ c, match c with CallStatus code => Some code | _ => None end) log.

Definition bodies_sent (log : list Call) : list JsValue :=
  omap (λ c, match c with CallJson b => Some b | _ => None end) log.

(** The calls that hand control to a collaborator: the validator or a
    registered callback. *)
Definition is_collaborator_call (c : Call) : bool :=
  match c with
  | CallValidate _ | CallCallback _ => true
  | _ => false
  end.

Definition collaborator_calls (log : list Call) : list Call :=
  List.filter is_collaborator_call log.

(** What an invocation comes to when the body of the dispatch function
    answers on handle [r], after the calls [pre]. *)
Definition replied (code : Z) (b : JsValue) (r : NextApiResponse)
    (pre : list Call)
  : Completion JsValue JsValue * NextApiResponse * list Call :=
  let '(c, r') := reply code b r in
  (c, r', (pre ++ [CallStatus code; CallJson b])%list).

(** The candidate handed to the validator. *)
Definition candidate_of (req : NextApiRequest) : JsProps :=
  object_spread (object_spread ∅ (query req)) (body req).

(** ** The two ways an invocation ends *)

(** The body of the dispatch function answers on the handle it was given,
    or on the handle that a callback left when it threw. *)
Definition answers_on (table : gmap string RequestHandler)
    (req0 : NextApiRequest) (res0 r : NextApiResponse) : Prop :=
  r = res0
  ∨ ∃ request input0 error,
      table !! method_key req0 = Some request
      ∧ validate (schema request) (candidate_of req0) = Normal input0
      ∧ callback request {| input := input0; req := req0 |} res0
        = (Throw error, r).

(** Either the body of the dispatch function answered itself, once, after
    calls to collaborators only; or it tried to, on a handle whose headers
    were sent, and the error of [res.json] left the function; or the
    registered callback completed and its result was passed on. *)
Inductive Outcome (table : gmap string RequestHandler)
    (req0 : NextApiRequest) (res0 : NextApiResponse)
  : Completion JsValue JsValue * NextApiResponse * list Call → Prop :=
| Responded code b r pre :
    code ∈ [400; 404; 405; 500] →
    collaborator_calls pre = pre →
    answers_on table req0 res0 r →
    headersSent r = false →
    Outcome table req0 res0
      (Normal JsUndefined, respond code b r,
       (pre ++ [CallStatus code; CallJson b])%list)
| Refused code b r pre :
    code ∈ [400; 404; 405; 500] →
    collaborator_calls pre = pre →
    answers_on table req0 res0 r →
    headersSent r = true →
    Outcome table req0 res0
      (Throw ERR_HTTP_HEADERS_SENT, status code r,
       (pre ++ [CallStatus code; CallJson b])%list)
| Returned request input0 result r :
    table !! method_key req0 = Some request →
    validate (schema request) (candidate_of req0) = Normal input0 →
    callback request {| input := input0; req := req0 |} res0
      = (Normal result, r) →
    Outcome table req0 res0
      (Normal result, r,
       [CallValidate (candidate_of req0);
        CallCallback {| input := input0; req := req0 |}]).

(** * A small API, for the examples *)

Module Example.

Definition required_id : JsValue :=
  JsErrorObject OtherError "id is a required field".

(** A schema with one required field. *)
Definition id_schema : ObjectSchema :=
  {| validate := λ o,
       if bool_decide (is_Some (o !! "id")) then Normal (JsObject o)
       else Throw required_id |}.

(** A schema whose validator raises a controller error. *)
Definition lost_schema : ObjectSchema :=
  {| validate := λ _, Throw new_NotFoundControllerError |}.

(** [res.status(200).json(ApiReturns.ok)] *)
Definition send_ok (ctx : ApiCallbackContext) (r : NextApiResponse)
  : Completion JsValue JsValue * NextApiResponse :=
  reply 200 (JsObject ApiReturns.ok) r.

Definition not_found (ctx : ApiCallbackContext) (r : NextApiResponse)
  : Completion JsValue JsValue * NextApiResponse :=
  (Throw new_NotFoundControllerError, r).

Definition not_implemented (ctx : ApiCallbackContext) (r : NextApiResponse)
  : Completion JsValue JsValue * NextApiResponse :=
  (Throw new_NotImplementedControllerError, r).

Definition broken (ctx : ApiCallbackContext) (r : NextApiResponse)
  : Completion JsValue JsValue * NextApiResponse :=
  (Throw (JsErrorObject OtherError "connect ECONNREFUSED"), r).

(** A callback that answers and then fails:
    [res.status(201).json("partial"); throw error] *)
Definition answers_then_throws (error : JsValue)
    (ctx : ApiCallbackContext) (r : NextApiResponse)
  : Completion JsValue JsValue * NextApiResponse :=
  (Throw error, (reply 201 (JsString "partial") r).2).

(** [const api = new ApiBuilder()] *)
Definition api : ApiBuilder.instance := (ApiBuilder.new ∅).1.
Definition heap0 : Heap := (ApiBuilder.new ∅).2.

(** [const early = api.build()], before anything is registered. *)
Definition early : ApiBuilder.closure := (ApiBuilder.build api heap0).1.

(** [api.get(id_schema, send_ok)] *)
Definition heap1 : Heap := (ApiBuilder.get api id_schema send_ok heap0).2.

(** [const late = api.build()] *)
Definition late : ApiBuilder.closure := (ApiBuilder.build api heap1).1.

(** [api.post(id_schema, not_found).put(lost_schema, send_ok)] *)
Definition heap2 : Heap :=
  (ApiBuilder.put api lost_schema send_ok
     (ApiBuilder.post api id_schema not_found heap1).2).2.

(** [api.method("DELETE", id_schema, ...).method("OPTIONS", id_schema, ...)],
    with callbacks that answer before they throw. *)
Definition heap3 : Heap :=
  (ApiBuilder.method api OPTIONS id_schema
     (answers_then_throws (JsErrorObject OtherError "connect ECONNREFUSED"))
     (ApiBuilder.method api DELETE id_schema
        (answers_then_throws new_NotFoundControllerError) heap2).2).2.

Definition request (m : string) (q b : JsProps) : NextApiRequest :=
  {| method := Some m; query := q; body := b |}.

Definition with_id : JsProps := {[ "id" := JsString "7" ]}.

Definition get_item : NextApiRequest := request "GET" with_id ∅.

End Example.

(** * The fetch helpers *)

Module Fetch.

(** The response of the platform's [fetch], as far as the helpers read
    it: the status, and how [response.json()] settles. *)
Record Response := {
  status : Z;
  json : Completion JsValue JsValue;
}.

(** The second argument of [fetch]. *)
Record RequestInit := {
  init_method : string;
  init_headers : list (string * string);
  init_body : option string;
}.

(** How a helper's promise is rejected: with the [FetchRequestError] that
    the helper constructs, or with an error of [JSON.stringify], [fetch]
    or [response.json()], which passes through unwrapped. *)
Inductive Rejection :=
| FetchRequestError (response : Response) (message : string)
| Propagated (error : JsValue).

(** The type ["POST" | "PUT"]. *)
Inductive PostOrPut := POST | PUT.

Definition PostOrPut_string (m : PostOrPut) : string :=
  match m with POST => "POST" | PUT => "PUT" end.

Definition propagate {A} (c : Completion JsValue A) : Completion Rejection A :=
  match c with
  | Normal a => Normal a
  | Throw error => Throw (Propagated error)
  end.

Section Helpers.

(** The platform: [fetch] and [JSON.stringify]. *)
Variable fetch : string → RequestInit → Completion JsValue Response.
Variable JSON_stringify : JsValue → Completion JsValue (option string).

Definition fetchGet (url : string) : Completion Rejection JsValue :=
  match
    fetch url
      {| init_method := "GET";
         init_headers :=
           [("Accept", "application/json");
            ("Content-Type", "application/json;charset=UTF-8")];
         init_body := None |}
  with
  | Throw error => Throw (Propagated error)
  | Normal response =>
      if status response >=? 300 then
        Throw (FetchRequestError response ("Error fetching from " ++ url))
      else propagate (json response)
  end.

Definition fetchPostOrPut (m : PostOrPut) (url : string) (data : JsValue)
  : Completion Rejection JsValue :=
  match JSON_stringify data with
  | Throw error => Throw (Propagated error)
  | Normal text =>
      match
        fetch url
          {| init_method := PostOrPut_string m;
             init_headers :=
               [("Accept", "application/json");
                ("Content-Type", "application/json;charset=UTF-8")];
             init_body := text |}
      with
      | Throw error => Throw (Propagated error)
      | Normal response =>
          if status response >=? 300 then
            Throw (FetchRequestError response
                     ("Error fetching from " ++ url))
          else propagate (json response)
      end
  end.

Definition fetchPost (url : string) (data : JsValue)
  : Completion Rejection JsValue :=
  fetchPostOrPut POST url data.

Definition fetchPut (url : string) (data : JsValue)
  : Completion Rejection JsValue :=
  fetchPostOrPut PUT url data.

End Helpers.

(** A mock endpoint that answers every request with [response], and a
    serializer that writes every value as [{}]. *)
Definition mock_fetch (response : Response) (url : string) (i : RequestInit)
  : Completion JsValue Response := Normal response.

Definition mock_stringify (data : JsValue) : Completion JsValue (option string) :=
  Normal (Some "{}").

Definition answer (code : Z) : Response :=
  {| status := code; json := Normal (JsObject ApiReturns.ok) |}.

End Fetch.

(** ** Heaps that the builder produces *)

(** The names of [ApiMethods]. *)
Definition ApiMethods_names : list string :=
  [ "GET"; "POST"; "PUT"; "DELETE"; "OPTIONS" ].

(** The heaps that a program reaches from the empty heap by creating
    builders and registering handlers on builders it has created ([get],
    [post] and [put] are registrations through [method]). *)
Inductive built : Heap → Prop :=
| built_empty : built ∅
| built_new σ : built σ → built (ApiBuilder.new σ).2
| built_method σ this m s cb :
    built σ → is_Some (σ !! ApiBuilder.requests this) →
    built (ApiBuilder.method this m s cb σ).2.



(** ** ItemController and its route *)

Module ItemController.

(** The response of the outbound client [api], by its [data] field. *)
Record AxiosResponse := {
  data : JsValue;
}.

Section Client.

(** [api.get(path)] of the client created in [services/api/api]. *)
Variable api_get : string → Completion JsValue AxiosResponse.

(** [const { data } = await api.get("products/1"); return data] *)
Definition get : Completion JsValue JsValue :=
  match api_get "products/1" with
  | Normal response => Normal (data response)
  | Throw error => Throw error
  end.

(** The route:
    [const result = await new ItemController().get();
     return res.status(200).json(result)] *)
Definition handler (req : NextApiRequest) : Async JsValue :=
  result ← await get; _ ← res_status 200; res_json result.

(** One invocation of the route on a response handle. *)
Definition invoke (req : NextApiRequest) (res0 : NextApiResponse)
  : Completion JsValue JsValue * NextApiResponse * list Call :=
  let '(c, x) := handler req {| res := res0; calls := [] |} in
  (c, res x, calls x).

End Client.

(** A product service that knows one product, and one that is down. *)
Definition product : JsValue :=
  JsObject (<[ "title" := JsString "lamp" ]> {[ "id" := JsNumber 1 ]}).

Definition serving (path : string) : Completion JsValue AxiosResponse :=
  Normal {| data := product |}.

Definition down (path : string) : Completion JsValue AxiosResponse :=
  Throw (JsErrorObject OtherError "connect ECONNREFUSED").

End ItemController.

(** * Properties of the dispatch function *)

Ltac run_exchange :=
  unfold ApiBuilder.handler, ApiBuilder.invoke, ApiBuilder.handler_body,
    replied, reply, res_status, res_json,
    call_validate, call_callback, request_schema, request_callback, try_block,
    with_response, await, on_response, log, throw, mret, mbind,
    Async_ret, Async_bind, ret, bind, candidate_of in *;
  cbn [falsy res calls fst snd app] in *.

(** Answering on a handle whose headers are not sent, and on one whose
    headers are. *)
Lemma reply_fresh code b r :
  headersSent r = false →
  reply code b r = (Normal JsUndefined, respond code b r).
Proof.
  unfold reply, json, headersSent, respond, status. cbn.
  by destruct (sent r).
Qed.

Lemma reply_sent code b r :
  headersSent r = true →
  reply code b r = (Throw ERR_HTTP_HEADERS_SENT, status code r).
Proof.
  unfold reply, json, headersSent, status. cbn.
  by destruct (sent r).
Qed.

Lemma replied_fresh code b r pre :
  headersSent r = false →
  replied code b r pre
  = (Normal JsUndefined, respond code b r,
     (pre ++ [CallStatus code; CallJson b])%list).
Proof. intros Hf. unfold replied. by rewrite reply_fresh. Qed.

Lemma replied_sent code b r pre :
  headersSent r = true →
  replied code b r pre
  = (Throw ERR_HTTP_HEADERS_SENT, status code r,
     (pre ++ [CallStatus code; CallJson b])%list).
Proof. intros Hf. unfold replied. by rewrite reply_sent. Qed.

Lemma replied_log code b r pre :
  (replied code b r pre).2 = (pre ++ [CallStatus code; CallJson b])%list.
Proof. unfold replied. by destruct (reply code b r). Qed.

Section Dispatch.

Variable table : gmap string RequestHandler.
Variable req0 : NextApiRequest.
Variable res0 : NextApiResponse.

(** A method name that is neither registered nor inherited: the answer
    is 405, with no call to a collaborator. *)
Lemma invoke_undefined_entry :
  get_property table (method_key req0) = Undefined →
  ApiBuilder.invoke table req0 res0
  = replied 405 (JsObject ApiReturns.error) res0 [].
Proof.
  intros Hp. run_exchange. rewrite Hp. cbn [falsy].
  by destruct (json _ _) as [[[]|] ?].
Qed.

(** A method name that [Object.prototype] defines and the table does not:
    the entry is truthy, reading its schema fails inside the first [try],
    and the failure is reported as a validation failure. *)
Lemma invoke_inherited_entry name :
  get_property table (method_key req0) = Inherited name →
  ApiBuilder.invoke table req0 res0
  = replied 400
      (JsObject
         (<[ "error" :=
               JsErrorObject TypeError
                 "Cannot read properties of undefined (reading 'validate')" ]>
            ApiReturns.error)) res0 [].
Proof.
  intros Hp. run_exchange. rewrite Hp. cbn [falsy].
  by destruct (json _ _) as [[[]|] ?].
Qed.

Section Registered.

Variable request : RequestHandler.
Hypothesis Hreg : table !! method_key req0 = Some request.

Lemma get_property_registered :
  get_property table (method_key req0) = Registered request.
Proof. unfold get_property. by rewrite Hreg. Qed.

(** The validator rejects: the answer is 400 with the error attached. *)
Lemma invoke_validation_fails error :
  validate (schema request) (candidate_of req0) = Throw error →
  ApiBuilder.invoke table req0 res0
  = replied 400 (JsObject (<[ "error" := error ]> ApiReturns.error)) res0
      [CallValidate (candidate_of req0)].
Proof.
  intros Hv. pose proof get_property_registered as Hp.
  run_exchange. rewrite Hp. cbn. rewrite Hv.
  by destruct (json _ _) as [[[]|] ?].
Qed.

Section Validated.

Variable input0 : JsValue.
Hypothesis Hvalid :
  validate (schema request) (candidate_of req0) = Normal input0.

(** The callback completes: its result is the result, and the body
    of the dispatch function touches the response handle no more. *)
Lemma invoke_callback_returns result res1 :
  callback request {| input := input0; req := req0 |} res0
    = (Normal result, res1) →
  ApiBuilder.invoke table req0 res0 =
    (Normal result, res1,
     [CallValidate (candidate_of req0);
      CallCallback {| input := input0; req := req0 |}]).
Proof.
  intros Hc. pose proof get_property_registered as Hp.
  run_exchange. rewrite Hp. cbn. rewrite Hvalid. cbn.
  rewrite Hc. reflexivity.
Qed.

(** The callback throws: the status and the body of the answer depend on
    the class of the error alone, and the answer is made on the handle as
    the callback left it. *)
Lemma invoke_callback_throws error res1 :
  callback request {| input := input0; req := req0 |} res0
    = (Throw error, res1) →
  ApiBuilder.invoke table req0 res0 =
    let '(code, b) :=
      if instanceof error NotFoundControllerError
      then (404, JsObject ApiReturns.notFound)
      else if instanceof error NotImplementedControllerError
      then (405, JsObject ApiReturns.error)
      else (500, JsObject ApiReturns.error) in
    replied code b res1
      [CallValidate (candidate_of req0);
       CallCallback {| input := input0; req := req0 |}].
Proof.
  intros Hc. pose proof get_property_registered as Hp.
  run_exchange. rewrite Hp. cbn. rewrite Hvalid. cbn.
  rewrite Hc. cbn.
  destruct (instanceof error NotFoundControllerError);
    [|destruct (instanceof error NotImplementedControllerError)];
    cbn; by destruct (json _ _) as [[[]|] ?].
Qed.

End Validated.
End Registered.
End Dispatch.

Lemma invoke_outcome table req0 res0 :
  Outcome table req0 res0 (ApiBuilder.invoke table req0 res0).
Proof.
  assert (Hreply : ∀ code b r pre,
            code ∈ [400; 404; 405; 500] → collaborator_calls pre = pre →
            answers_on table req0 res0 r →
            Outcome table req0 res0 (replied code b r pre)).
  { intros code b r pre Hcode Hpre Hon.
    destruct (headersSent r) eqn:Hs.
    - rewrite replied_sent by done. by apply Refused.
    - rewrite replied_fresh by done. by apply Responded. }
  destruct (get_property table (method_key req0)) as [request|name|] eqn:Hp.
  - assert (Hreg : table !! method_key req0 = Some request).
    { unfold get_property in Hp. destruct (table !! method_key req0); [|by case_bool_decide].
      by inversion Hp. }
    destruct (validate (schema request) (candidate_of req0)) as [input0|error] eqn:Hv.
    + destruct (callback request {| input := input0; req := req0 |} res0)
        as [[result|error] res1] eqn:Hc.
      * rewrite (invoke_callback_returns _ _ _ _ Hreg _ Hv _ _ Hc).
        by eapply Returned.
      * rewrite (invoke_callback_throws _ _ _ _ Hreg _ Hv _ _ Hc).
        assert (Hon : answers_on table req0 res0 res1)
          by (right; by exists request, input0, error).
        destruct (instanceof error NotFoundControllerError);
          [|destruct (instanceof error NotImplementedControllerError)];
          (apply Hreply; [set_solver | reflexivity | exact Hon]).
    + rewrite (invoke_validation_fails _ _ _ _ Hreg _ Hv).
      apply Hreply; [set_solver | reflexivity | by left].
  - rewrite (invoke_inherited_entry _ _ _ _ Hp).
    apply Hreply; [set_solver | reflexivity | by left].
  - rewrite (invoke_undefined_entry _ _ _ Hp).
    apply Hreply; [set_solver | reflexivity | by left].
Qed.

(** The same, for a dispatch function and the heap it runs in. *)
Section Built.

Variable h : ApiBuilder.closure.
Variable σ : Heap.
Variable req0 : NextApiRequest.
Variable res0 : NextApiResponse.

Lemma handler_undefined_entry :
  get_property (ApiBuilder.table_at σ (ApiBuilder.captured_requests h))
    (method_key req0) = Undefined →
  ApiBuilder.handler h σ req0 res0
  = replied 405 (JsObject ApiReturns.error) res0 [].
Proof. apply invoke_undefined_entry. Qed.

Lemma handler_inherited_entry name :
  get_property (ApiBuilder.table_at σ (ApiBuilder.captured_requests h))
    (method_key req0) = Inherited name →
  ApiBuilder.handler h σ req0 res0
  = replied 400
      (JsObject
         (<[ "error" :=
               JsErrorObject TypeError
                 "Cannot read properties of undefined (reading 'validate')" ]>
            ApiReturns.error)) res0 [].
Proof. apply invoke_inherited_entry. Qed.

Lemma handler_validation_fails request :
  ApiBuilder.table_at σ (ApiBuilder.captured_requests h) !! method_key req0
    = Some request →
  ∀ error,
  validate (schema request) (candidate_of req0) = Throw error →
  ApiBuilder.handler h σ req0 res0
  = replied 400 (JsObject (<[ "error" := error ]> ApiReturns.error)) res0
      [CallValidate (candidate_of req0)].
Proof. apply invoke_validation_fails. Qed.

Lemma handler_callback_returns request :
  ApiBuilder.table_at σ (ApiBuilder.captured_requests h) !! method_key req0
    = Some request →
  ∀ input0,
  validate (schema request) (candidate_of req0) = Normal input0 →
  ∀ result res1,
  callback request {| input := input0; req := req0 |} res0
    = (Normal result, res1) →
  ApiBuilder.handler h σ req0 res0 =
    (Normal result, res1,
     [CallValidate (candidate_of req0);
      CallCallback {| input := input0; req := req0 |}]).
Proof. apply invoke_callback_returns. Qed.

Lemma handler_callback_throws request :
  ApiBuilder.table_at σ (ApiBuilder.captured_requests h) !! method_key req0
    = Some request →
  ∀ input0,
  validate (schema request) (candidate_of req0) = Normal input0 →
  ∀ error res1,
  callback request {| input := input0; req := req0 |} res0
    = (Throw error, res1) →
  ApiBuilder.handler h σ req0 res0 =
    let '(code, b) :=
      if instanceof error NotFoundControllerError
      then (404, JsObject ApiReturns.notFound)
      else if instanceof error NotImplementedControllerError
      then (405, JsObject ApiReturns.error)
      else (500, JsObject ApiReturns.error) in
    replied code b res1
      [CallValidate (candidate_of req0);
       CallCallback {| input := input0; req := req0 |}].
Proof. apply invoke_callback_throws. Qed.

Lemma handler_outcome :
  Outcome (ApiBuilder.table_at σ (ApiBuilder.captured_requests h)) req0 res0
          (ApiBuilder.handler h σ req0 res0).
Proof. apply invoke_outcome. Qed.

End Built.

Lemma statuses_set_app l1 l2 :
  statuses_set (l1 ++ l2)%list = (statuses_set l1 ++ statuses_set l2)%list.
Proof. apply omap_app. Qed.


(** Calls to collaborators set no status and send no body. *)
Lemma collaborator_calls_silent pre :
  collaborator_calls pre = pre →
  statuses_set pre = [] ∧ bodies_sent pre = [].
Proof.
  induction pre as [|c pre IH]; [done|].
  unfold collaborator_calls. cbn [List.filter].
  destruct (is_collaborator_call c) eqn:Hc.
  - intros [= Hpre]. destruct (IH Hpre) as [IH1 IH2].
    destruct c; try discriminate; cbn; by rewrite ?IH1, ?IH2.
  - intros Hpre.
    assert (Hlen : (length (List.filter is_collaborator_call pre) ≤ length pre)%nat)
      by apply List.filter_length_le.
    rewrite Hpre in Hlen. cbn in Hlen. lia.
Qed.

Lemma get_property_undefined (table : gmap string RequestHandler) key :
  table !! key = None → key ∉ Object_prototype_names →
  get_property table key = Undefined.
Proof. intros Hn Hk. unfold get_property. rewrite Hn. by case_bool_decide. Qed.

Lemma get_property_inherited (table : gmap string RequestHandler) key :
  table !! key = None → key ∈ Object_prototype_names →
  get_property table key = Inherited key.
Proof. intros Hn Hk. unfold get_property. rewrite Hn. by case_bool_decide. Qed.


(** A registration writes one key of the builder's table, in place. *)
Lemma table_at_method this m s cb σ :
  ApiBuilder.table_at (ApiBuilder.method this m s cb σ).2 (ApiBuilder.requests this)
  = <[ ApiMethods_string m := {| schema := s; callback := cb |} ]>
      (ApiBuilder.table_at σ (ApiBuilder.requests this)).
Proof.
  unfold ApiBuilder.method, ApiBuilder.table_at. cbn.
  by rewrite lookup_insert_eq.
Qed.

(** * The claims about the dispatch function *)

(** C1, as the specification states it, fails: [Example.early] was built
    before [GET] was registered, and still the registration changes what it
    does with a [GET] request, from 405 to the new callback's answer. *)
Lemma later_registration_changes_built_dispatch :
  ApiBuilder.handler Example.early Example.heap0 Example.get_item new_response
    = (Normal JsUndefined,
       respond 405 (JsObject ApiReturns.error) new_response,
       [CallStatus 405; CallJson (JsObject ApiReturns.error)])
  ∧ ApiBuilder.handler Example.early Example.heap1 Example.get_item new_response
    = (Normal JsUndefined,
       respond 200 (JsObject ApiReturns.ok) new_response,
       [CallValidate Example.with_id;
        CallCallback {| input := JsObject Example.with_id;
                        req := Example.get_item |}])
  ∧ ApiBuilder.handler Example.early Example.heap1 Example.get_item new_response
    ≠ ApiBuilder.handler Example.early Example.heap0 Example.get_item new_response.
Proof.
  assert (H0 : ApiBuilder.handler Example.early Example.heap0 Example.get_item
                 new_response
               = (Normal JsUndefined,
                  respond 405 (JsObject ApiReturns.error) new_response,
                  [CallStatus 405; CallJson (JsObject ApiReturns.error)]))
    by (vm_compute; reflexivity).
  assert (H1 : ApiBuilder.handler Example.early Example.heap1 Example.get_item
                 new_response
               = (Normal JsUndefined,
                  respond 200 (JsObject ApiReturns.ok) new_response,
                  [CallValidate Example.with_id;
                   CallCallback {| input := JsObject Example.with_id;
                                   req := Example.get_item |}]))
    by (vm_compute; reflexivity).
  split; [exact H0|]. split; [exact H1|].
  rewrite H0, H1. intros Heq.
  apply (f_equal (λ t, statusCode t.1.2)) in Heq. cbn in Heq. discriminate.
Qed.

(** C1, amended: the dispatch function that [build] returns holds the
    builder's table object itself, not a copy.  [build] leaves the heap as
    it is and returns the same function in every heap, so two calls of
    [build] on one builder, whatever registrations separate them, yield
    functions that behave alike; and an already-built function, run after a
    later registration, dispatches on the table with that registration in
    it. *)
Theorem build_shares_the_table
    (this : ApiBuilder.instance) (σ : Heap) (m : ApiMethods)
    (s : ObjectSchema)
    (cb : ApiCallbackContext → NextApiResponse →
          Completion JsValue JsValue * NextApiResponse)
    (req0 : NextApiRequest) (res0 : NextApiResponse) :
  (ApiBuilder.build this σ).2 = σ
  ∧ (∀ σ' : Heap, (ApiBuilder.build this σ').1 = (ApiBuilder.build this σ).1)
  ∧ ApiBuilder.handler (ApiBuilder.build this σ).1
      (ApiBuilder.method this m s cb σ).2 req0 res0
    = ApiBuilder.invoke
        (<[ ApiMethods_string m := {| schema := s; callback := cb |} ]>
           (ApiBuilder.table_at σ (ApiBuilder.requests this)))
        req0 res0
  ∧ get_property
      (ApiBuilder.table_at (ApiBuilder.method this m s cb σ).2
         (ApiBuilder.captured_requests (ApiBuilder.build this σ).1))
      (ApiMethods_string m)
    = Registered {| schema := s; callback := cb |}.
Proof.
  split; [reflexivity|]. split; [reflexivity|].
  unfold ApiBuilder.handler. cbn [ApiBuilder.build fst ApiBuilder.captured_requests].
  rewrite table_at_method. split; [reflexivity|].
  unfold get_property. by rewrite lookup_insert_eq.
Qed.

(** C2, as the specification states it, fails for a callback that has
    answered before it throws.  The callback registered for [DELETE] sends
    201 and then throws a [NotFoundControllerError]; the dispatch function
    sets 404, its [res.json] throws because the headers are sent, the
    promise is rejected with that error, and the 404 body never goes out. *)
Lemma callback_that_answered_gets_no_404 :
  callback
    {| schema := Example.id_schema;
       callback := Example.answers_then_throws new_NotFoundControllerError |}
    {| input := JsObject Example.with_id;
       req := Example.request "DELETE" Example.with_id ∅ |}
    new_response
  = (Throw (JsErrorObject NotFoundControllerError "Not Found"),
     respond 201 (JsString "partial") new_response)
  ∧ ApiBuilder.handler Example.late Example.heap3
      (Example.request "DELETE" Example.with_id ∅) new_response
    = (Throw ERR_HTTP_HEADERS_SENT,
       {| statusCode := 404; sent := [(201, JsString "partial")] |},
       [CallValidate Example.with_id;
        CallCallback {| input := JsObject Example.with_id;
                        req := Example.request "DELETE" Example.with_id ∅ |};
        CallStatus 404; CallJson (JsObject ApiReturns.notFound)])
  ∧ ApiBuilder.handler Example.late Example.heap3
      (Example.request "DELETE" Example.with_id ∅) new_response
    ≠ (Normal JsUndefined,
       respond 404 (JsObject ApiReturns.notFound)
         (respond 201 (JsString "partial") new_response),
       [CallValidate Example.with_id;
        CallCallback {| input := JsObject Example.with_id;
                        req := Example.request "DELETE" Example.with_id ∅ |};
        CallStatus 404; CallJson (JsObject ApiReturns.notFound)]).
Proof.
  split; [reflexivity|].
  assert (Hrun : ApiBuilder.handler Example.late Example.heap3
                   (Example.request "DELETE" Example.with_id ∅) new_response
                 = (Throw ERR_HTTP_HEADERS_SENT,
                    {| statusCode := 404; sent := [(201, JsString "partial")] |},
                    [CallValidate Example.with_id;
                     CallCallback
                       {| input := JsObject Example.with_id;
                          req := Example.request "DELETE" Example.with_id ∅ |};
                     CallStatus 404; CallJson (JsObject ApiReturns.notFound)]))
    by (vm_compute; reflexivity).
  split; [exact Hrun|]. rewrite Hrun. discriminate.
Qed.

(** C2, amended: when the method is registered, the input passes
    validation, and the callback throws without having sent a response
    (the headers of the handle it leaves are not sent), the error is
    answered by its class alone: 404 with [ApiReturns.notFound] for a
    [NotFoundControllerError], 405 with [ApiReturns.error] for a
    [NotImplementedControllerError], 500 with [ApiReturns.error] for
    anything else.  The bodies are the constants, whatever message the
    error carries. *)
Theorem callback_error_mapping
    (h : ApiBuilder.closure) (σ : Heap) (req0 : NextApiRequest)
    (res0 res1 : NextApiResponse) (request : RequestHandler)
    (input0 error : JsValue) :
  ApiBuilder.table_at σ (ApiBuilder.captured_requests h) !! method_key req0
    = Some request →
  validate (schema request) (candidate_of req0) = Normal input0 →
  callback request {| input := input0; req := req0 |} res0
    = (Throw error, res1) →
  headersSent res1 = false →
  let ctx := {| input := input0; req := req0 |} in
  let answered code b :=
    ApiBuilder.handler h σ req0 res0
    = (Normal JsUndefined, respond code b res1,
       [CallValidate (candidate_of req0); CallCallback ctx;
        CallStatus code; CallJson b]) in
  (∀ message, error = JsErrorObject NotFoundControllerError message →
     answered 404
       (JsObject (<[ "message" := JsString "Not Found" ]>
                    {[ "ok" := JsBool false ]})))
  ∧ (∀ message, error = JsErrorObject NotImplementedControllerError message →
     answered 405 (JsObject {[ "ok" := JsBool false ]}))
  ∧ (instanceof error NotFoundControllerError = false →
     instanceof error NotImplementedControllerError = false →
     answered 500 (JsObject {[ "ok" := JsBool false ]})).
Proof.
  intros Hreg Hv Hc Hfresh ctx answered. subst answered. cbv beta.
  pose proof (handler_callback_throws h σ req0 res0 request Hreg input0 Hv
                error res1 Hc) as Hrun.
  repeat split.
  - intros message ->. rewrite Hrun. cbn. by apply replied_fresh.
  - intros message ->. rewrite Hrun. cbn. by apply replied_fresh.
  - intros Hnf Hni. rewrite Hnf, Hni in Hrun. rewrite Hrun.
    by apply replied_fresh.
Qed.

Lemma callback_error_mapping_witness :
  ApiBuilder.handler Example.late Example.heap2
    (Example.request "POST" Example.with_id ∅) new_response
  = (Normal JsUndefined,
     respond 404 (JsObject ApiReturns.notFound) new_response,
     [CallValidate Example.with_id;
      CallCallback {| input := JsObject Example.with_id;
                      req := Example.request "POST" Example.with_id ∅ |};
      CallStatus 404; CallJson (JsObject ApiReturns.notFound)]).
Proof.
  refine (proj1 (callback_error_mapping Example.late Example.heap2
            (Example.request "POST" Example.with_id ∅)
            new_response new_response
            {| schema := Example.id_schema; callback := Example.not_found |}
            (JsObject Example.with_id) new_NotFoundControllerError
            _ _ _ _) "Not Found" _); reflexivity.
Defined.

(** C3: a request whose method has no entry in the table should be
    answered 405 with [{ok:false}].  The method name ["constructor"] has no
    entry in the table of the example API, yet the lookup finds the member
    that the table object inherits from [Object.prototype]; the dispatch
    function goes on, fails to read a schema from it, and answers 400 with
    the [TypeError] attached.  (Neither a validator nor a callback runs.) *)
Theorem inherited_name_is_answered_400 :
  ApiBuilder.table_at Example.heap2 (ApiBuilder.captured_requests Example.late)
    !! "constructor" = None
  ∧ ApiBuilder.handler Example.late Example.heap2
      (Example.request "constructor" ∅ ∅) new_response
    = (Normal JsUndefined,
       respond 400
         (JsObject
            (<[ "error" :=
                  JsErrorObject TypeError
                    "Cannot read properties of undefined (reading 'validate')" ]>
               {[ "ok" := JsBool false ]}))
         new_response,
       [CallStatus 400;
        CallJson
          (JsObject
             (<[ "error" :=
                   JsErrorObject TypeError
                     "Cannot read properties of undefined (reading 'validate')" ]>
                {[ "ok" := JsBool false ]}))]).
Proof.
  split; [reflexivity|].
  rewrite (handler_inherited_entry _ _ _ _ "constructor") by reflexivity.
  reflexivity.
Qed.

(** What does hold for every table: a method name that is neither
    registered nor a member of [Object.prototype] is answered 405 with
    [{ok:false}] on a handle whose headers are not sent, and no
    collaborator is called. *)
Lemma unregistered_plain_name_is_answered_405
    (h : ApiBuilder.closure) (σ : Heap) (req0 : NextApiRequest)
    (res0 : NextApiResponse) :
  ApiBuilder.table_at σ (ApiBuilder.captured_requests h) !! method_key req0
    = None →
  method_key req0 ∉ Object_prototype_names →
  headersSent res0 = false →
  ApiBuilder.handler h σ req0 res0
    = (Normal JsUndefined,
       respond 405 (JsObject {[ "ok" := JsBool false ]}) res0,
       [CallStatus 405; CallJson (JsObject {[ "ok" := JsBool false ]})])
  ∧ collaborator_calls (ApiBuilder.handler h σ req0 res0).2 = [].
Proof.
  intros Hn Hk Hfresh.
  pose proof (handler_undefined_entry h σ req0 res0
                (get_property_undefined _ _ Hn Hk)) as Hrun.
  rewrite replied_fresh in Hrun by done.
  split; [exact Hrun|]. by rewrite Hrun.
Qed.

(** C9: the lookup compares the method string exactly, so with only
    ["GET"] registered a ["get"] request is answered 405 with [{ok:false}].
    But not every string that differs from all registered keys is: the
    string ["constructor"] differs from ["GET"] and is answered 400. *)
Theorem lookup_is_exact_but_sees_inherited_names :
  dom (ApiBuilder.table_at Example.heap1
         (ApiBuilder.captured_requests Example.late)) = {[ "GET" ]}
  ∧ ApiBuilder.handler Example.late Example.heap1
      (Example.request "get" Example.with_id ∅) new_response
    = (Normal JsUndefined,
       respond 405 (JsObject {[ "ok" := JsBool false ]}) new_response,
       [CallStatus 405; CallJson (JsObject {[ "ok" := JsBool false ]})])
  ∧ statuses_set
      (ApiBuilder.handler Example.late Example.heap1
         (Example.request "constructor" Example.with_id ∅) new_response).2
    = [400].
Proof.
  split; [|split].
  - unfold Example.heap1, ApiBuilder.get. cbn [Example.late ApiBuilder.build fst
      ApiBuilder.captured_requests].
    rewrite table_at_method, dom_insert_L.
    unfold Example.heap0, ApiBuilder.table_at, ApiBuilder.new. cbn.
    rewrite lookup_insert_eq. cbn. by rewrite dom_empty_L, (right_id_L ∅ (∪)).
  - rewrite handler_undefined_entry by reflexivity. reflexivity.
  - rewrite (handler_inherited_entry _ _ _ _ "constructor"); reflexivity.
Qed.





Lemma elem_of_statuses_set log code :
  CallStatus code ∈ log ↔ code ∈ statuses_set log.
Proof.
  unfold statuses_set. rewrite list_elem_of_omap. split.
  - intros Hin. by exists (CallStatus code).
  - intros (c & Hin & Hc). destruct c; try discriminate. by inversion Hc; subst.
Qed.

(** C6: a status code that the body of the dispatch function sets is one
    of 400, 404, 405 and 500. *)
Theorem layer_status_codes
    (h : ApiBuilder.closure) (σ : Heap) (req0 : NextApiRequest)
    (res0 : NextApiResponse) (code : Z) :
  CallStatus code ∈ (ApiBuilder.handler h σ req0 res0).2 →
  code ∈ [400; 404; 405; 500].
Proof.
  rewrite elem_of_statuses_set.
  destruct (handler_outcome h σ req0 res0)
    as [code' b r pre Hcode Hpre _ _
       |code' b r pre Hcode Hpre _ _
       |request input0 result r Hreg Hv Hc]; cbn.
  - destruct (collaborator_calls_silent pre Hpre) as [Hs _].
    rewrite statuses_set_app, Hs. cbn. intros Hin.
    apply list_elem_of_singleton in Hin. by subst.
  - destruct (collaborator_calls_silent pre Hpre) as [Hs _].
    rewrite statuses_set_app, Hs. cbn. intros Hin.
    apply list_elem_of_singleton in Hin. by subst.
  - intros Hin. by apply not_elem_of_nil in Hin.
Qed.

Lemma layer_status_codes_witness :
  CallStatus 405
    ∈ (ApiBuilder.handler Example.early Example.heap0 Example.get_item
         new_response).2
  ∧ 405 ∈ [400; 404; 405; 500].
Proof.
  assert (Hin : CallStatus 405
                ∈ (ApiBuilder.handler Example.early Example.heap0
                     Example.get_item new_response).2)
    by (apply list_elem_of_here).
  split; [exact Hin|].
  exact (layer_status_codes Example.early Example.heap0 Example.get_item
           new_response 405 Hin).
Defined.

(** C10: the classes of controller errors count only in the callback
    phase.  A validator that throws an error of any class, a
    [NotFoundControllerError] or a [NotImplementedControllerError]
    included, has it reported as a validation failure: 400, with the error
    under [error], and no callback called.  (This on the handle as the
    adapter hands it over, with nothing sent; on a handle whose headers
    are sent the same call of [res.json] throws.) *)
Theorem validator_error_is_400_whatever_its_class
    (h : ApiBuilder.closure) (σ : Heap) (req0 : NextApiRequest)
    (res0 : NextApiResponse) (request : RequestHandler)
    (cls : ErrorClass) (message : string) :
  ApiBuilder.table_at σ (ApiBuilder.captured_requests h) !! method_key req0
    = Some request →
  validate (schema request) (candidate_of req0)
    = Throw (JsErrorObject cls message) →
  (headersSent res0 = false →
   ApiBuilder.handler h σ req0 res0
   = (Normal JsUndefined,
      respond 400
        (JsObject (<[ "error" := JsErrorObject cls message ]>
                     {[ "ok" := JsBool false ]})) res0,
      [CallValidate (candidate_of req0); CallStatus 400;
       CallJson
         (JsObject (<[ "error" := JsErrorObject cls message ]>
                      {[ "ok" := JsBool false ]}))]))
  ∧ (headersSent res0 = true →
     ApiBuilder.handler h σ req0 res0
     = (Throw ERR_HTTP_HEADERS_SENT, status 400 res0,
        [CallValidate (candidate_of req0); CallStatus 400;
         CallJson
           (JsObject (<[ "error" := JsErrorObject cls message ]>
                        {[ "ok" := JsBool false ]}))]))
  ∧ statuses_set (ApiBuilder.handler h σ req0 res0).2 = [400]
  ∧ bodies_sent (ApiBuilder.handler h σ req0 res0).2
    = [JsObject (<[ "error" := JsErrorObject cls message ]>
                   {[ "ok" := JsBool false ]})].
Proof.
  intros Hreg Hv.
  pose proof (handler_validation_fails h σ req0 res0 request Hreg _ Hv) as Hrun.
  rewrite Hrun.
  split; [intros Hf; by apply replied_fresh|].
  split; [intros Hs; by apply replied_sent|].
  unfold replied. by destruct (reply _ _ _).
Qed.

Lemma validator_error_is_400_whatever_its_class_witness :
  ApiBuilder.handler Example.late Example.heap2
    (Example.request "PUT" ∅ Example.with_id) new_response
  = (Normal JsUndefined,
     respond 400
       (JsObject (<[ "error" := JsErrorObject NotFoundControllerError
                                  "Not Found" ]>
                    {[ "ok" := JsBool false ]})) new_response,
     [CallValidate (candidate_of (Example.request "PUT" ∅ Example.with_id));
      CallStatus 400;
      CallJson
        (JsObject (<[ "error" := JsErrorObject NotFoundControllerError
                                   "Not Found" ]>
                     {[ "ok" := JsBool false ]}))]).
Proof.
  exact (proj1 (validator_error_is_400_whatever_its_class
           Example.late Example.heap2
           (Example.request "PUT" ∅ Example.with_id) new_response
           {| schema := Example.lost_schema; callback := Example.send_ok |}
           NotFoundControllerError "Not Found" eq_refl eq_refl) eq_refl).
Defined.

(** * Properties of the fetch helpers *)

Module FetchFacts.
Import Fetch.

Section Platform.

(** The platform: [fetch] and [JSON.stringify]. *)
Variable fetch : string → RequestInit → Completion JsValue Response.
Variable JSON_stringify : JsValue → Completion JsValue (option string).

(** What a helper does with the response it got. *)
Lemma after_response url (response : Response) :
  let result :=
    if status response >=? 300 then
      Throw (FetchRequestError response ("Error fetching from " ++ url))
    else propagate (json response) in
  (result = Throw (FetchRequestError response ("Error fetching from " ++ url))
   ↔ (300 ≤ status response)%Z)
  ∧ ((status response < 300)%Z → result = propagate (json response))
  ∧ (∀ v, (status response < 300)%Z → json response = Normal v →
          result = Normal v).
Proof.
  cbv zeta. destruct (Z.geb_spec (status response) 300) as [Hge|Hlt].
  - split; [split; [lia | reflexivity]|]. split; intros; lia.
  - split.
    + split; [|lia]. destruct (json response); discriminate.
    + split; [reflexivity|]. by intros v _ ->.
Qed.

(** C7: each of [fetchGet], [fetchPost] and [fetchPut], once [fetch]
    has answered with a response, fails with the [FetchRequestError]
    that carries this response and the message naming the URL exactly
    when the status is 300 or more; below 300 it settles as
    [response.json()] does, so it returns the decoded body. *)
Theorem fetch_status_threshold
    (url : string) (data : JsValue) (text : option string)
    (response : Response) :
  let headers :=
    [("Accept", "application/json");
     ("Content-Type", "application/json;charset=UTF-8")] in
  let contract (result : Completion Rejection JsValue) :=
    (result = Throw (FetchRequestError response
                       ("Error fetching from " ++ url))
     ↔ (300 ≤ status response)%Z)
    ∧ ((status response < 300)%Z → result = propagate (json response))
    ∧ (∀ v, (status response < 300)%Z → json response = Normal v →
            result = Normal v) in
  (fetch url {| init_method := "GET"; init_headers := headers;
                init_body := None |} = Normal response →
   contract (fetchGet fetch url))
  ∧ (JSON_stringify data = Normal text →
     fetch url {| init_method := "POST"; init_headers := headers;
                  init_body := text |} = Normal response →
     contract (fetchPost fetch JSON_stringify url data))
  ∧ (JSON_stringify data = Normal text →
     fetch url {| init_method := "PUT"; init_headers := headers;
                  init_body := text |} = Normal response →
     contract (fetchPut fetch JSON_stringify url data)).
Proof.
  intros headers contract. subst headers contract. cbv beta.
  unfold fetchGet, fetchPost, fetchPut, fetchPostOrPut.
  split; [|split].
  - intros ->. apply after_response.
  - intros -> Hpost. cbn [PostOrPut_string]. rewrite Hpost. apply after_response.
  - intros -> Hput. cbn [PostOrPut_string]. rewrite Hput. apply after_response.
Qed.

(** C8: [fetchPost] is [fetchPostOrPut] at ["POST"] and [fetchPut] is
    [fetchPostOrPut] at ["PUT"]; the verb is all that tells them apart,
    so over a transport that disregards the verb they agree. *)
Theorem post_and_put_delegate (url : string) (data : JsValue) :
  fetchPost fetch JSON_stringify url data
    = fetchPostOrPut fetch JSON_stringify POST url data
  ∧ fetchPut fetch JSON_stringify url data
    = fetchPostOrPut fetch JSON_stringify PUT url data
  ∧ ((∀ u i1 i2, init_headers i1 = init_headers i2 →
                 init_body i1 = init_body i2 →
                 fetch u i1 = fetch u i2) →
     fetchPost fetch JSON_stringify url data
       = fetchPut fetch JSON_stringify url data).
Proof.
  split; [reflexivity|]. split; [reflexivity|].
  intros Hblind. unfold fetchPost, fetchPut, fetchPostOrPut.
  destruct (JSON_stringify data) as [text|error]; [|reflexivity].
  by rewrite (Hblind url
                {| init_method := PostOrPut_string POST;
                   init_headers :=
                     [("Accept", "application/json");
                      ("Content-Type", "application/json;charset=UTF-8")];
                   init_body := text |}
                {| init_method := PostOrPut_string PUT;
                   init_headers :=
                     [("Accept", "application/json");
                      ("Content-Type", "application/json;charset=UTF-8")];
                   init_body := text |} eq_refl eq_refl).
Qed.

End Platform.

Lemma fetch_status_threshold_witness :
  fetchGet (mock_fetch (answer 299)) "/api/items" = Normal (JsObject ApiReturns.ok)
  ∧ fetchPost (mock_fetch (answer 299)) mock_stringify "/api/items" JsNull
    = Normal (JsObject ApiReturns.ok)
  ∧ fetchPut (mock_fetch (answer 299)) mock_stringify "/api/items" JsNull
    = Normal (JsObject ApiReturns.ok).
Proof.
  pose proof (fetch_status_threshold (mock_fetch (answer 299)) mock_stringify
                "/api/items" JsNull (Some "{}") (answer 299))
    as (Hget & Hpost & Hput).
  split; [|split].
  - apply (Hget eq_refl); [cbn; lia | reflexivity].
  - apply (Hpost eq_refl eq_refl); [cbn; lia | reflexivity].
  - apply (Hput eq_refl eq_refl); [cbn; lia | reflexivity].
Defined.

(** At the boundary: 300 fails, with the response in the error. *)
Example status_300_fails :
  fetchGet (mock_fetch (answer 300)) "/api/items"
  = Throw (FetchRequestError (answer 300) "Error fetching from /api/items")
  ∧ fetchPost (mock_fetch (answer 300)) mock_stringify "/api/items" JsNull
    = Throw (FetchRequestError (answer 300) "Error fetching from /api/items")
  ∧ fetchPut (mock_fetch (answer 300)) mock_stringify "/api/items" JsNull
    = Throw (FetchRequestError (answer 300) "Error fetching from /api/items").
Proof. repeat split. Qed.

Lemma post_and_put_delegate_witness :
  fetchPost (mock_fetch (answer 200)) mock_stringify "/api/items" JsNull
  = fetchPut (mock_fetch (answer 200)) mock_stringify "/api/items" JsNull.
Proof.
  apply (post_and_put_delegate (mock_fetch (answer 200)) mock_stringify
           "/api/items" JsNull).
  reflexivity.
Defined.

End FetchFacts.

(** * Further properties of the builder *)

Lemma ApiMethods_string_inj m1 m2 :
  ApiMethods_string m1 = ApiMethods_string m2 → m1 = m2.
Proof. destruct m1, m2; (reflexivity || discriminate). Qed.

Lemma ApiMethods_string_name m : ApiMethods_string m ∈ ApiMethods_names.
Proof. destruct m; unfold ApiMethods_names; set_solver. Qed.

(** What an invocation does with the table is one property read. *)
Lemma invoke_reads_one_property (t1 t2 : gmap string RequestHandler) req0 res0 :
  get_property t1 (method_key req0) = get_property t2 (method_key req0) →
  ApiBuilder.invoke t1 req0 res0 = ApiBuilder.invoke t2 req0 res0.
Proof.
  intros Hp. unfold ApiBuilder.invoke, ApiBuilder.handler_body.
  by rewrite Hp.
Qed.

Lemma get_property_same_lookup (t1 t2 : gmap string RequestHandler) key :
  t1 !! key = t2 !! key → get_property t1 key = get_property t2 key.
Proof. intros Hl. unfold get_property. by rewrite Hl. Qed.

(** The table of another builder is out of reach of a registration. *)
Lemma table_at_method_other this m s cb σ l :
  l ≠ ApiBuilder.requests this →
  ApiBuilder.table_at (ApiBuilder.method this m s cb σ).2 l
  = ApiBuilder.table_at σ l.
Proof.
  intros Hl. unfold ApiBuilder.method, ApiBuilder.table_at. cbn.
  by rewrite lookup_insert_ne.
Qed.

(** In a heap that the builder produced, the keys of every table are names
    of [ApiMethods]. *)
Lemma built_table_keys σ :
  built σ →
  ∀ l table key, σ !! l = Some table → is_Some (table !! key) →
                 key ∈ ApiMethods_names.
Proof.
  induction 1 as [|σ Hb IH|σ this m s cb Hb IH Halloc]; intros l table key Hl Hk.
  - by rewrite lookup_empty in Hl.
  - unfold ApiBuilder.new in Hl. cbn [snd] in Hl.
    destruct (decide (fresh (dom σ) = l)) as [Heq|Hne].
    + rewrite Heq, lookup_insert_eq in Hl. injection Hl as <-.
      rewrite lookup_empty in Hk. by destruct Hk.
    + rewrite lookup_insert_ne in Hl by done. by eapply IH.
  - unfold ApiBuilder.method in Hl. cbn [snd] in Hl.
    destruct (decide (ApiBuilder.requests this = l)) as [Heq|Hne].
    + subst l. rewrite lookup_insert_eq in Hl. injection Hl as <-.
      destruct (decide (ApiMethods_string m = key)) as [<-|Hkey].
      * apply ApiMethods_string_name.
      * rewrite lookup_insert_ne in Hk by done.
        destruct Halloc as [table' Ht]. unfold ApiBuilder.table_at in Hk.
        rewrite Ht in Hk. by eapply IH.
    + rewrite lookup_insert_ne in Hl by done. by eapply IH.
Qed.

Lemma built_lookup_outside σ l key :
  built σ → key ∉ ApiMethods_names →
  ApiBuilder.table_at σ l !! key = None.
Proof.
  intros Hb Hk. unfold ApiBuilder.table_at.
  destruct (σ !! l) as [table|] eqn:Hl; [|apply lookup_empty].
  destruct (table !! key) eqn:Hkey; [|done].
  exfalso. apply Hk. by eapply built_table_keys.
Qed.

(** X1: [new ApiBuilder()] gives the builder a table of its own: its
    address was not in use, the table is empty, and the tables of the
    builders that exist are as they were. *)
Theorem new_builder_has_its_own_empty_table (σ : Heap) :
  σ !! ApiBuilder.requests (ApiBuilder.new σ).1 = None
  ∧ ApiBuilder.table_at (ApiBuilder.new σ).2
      (ApiBuilder.requests (ApiBuilder.new σ).1) = ∅
  ∧ (∀ l, is_Some (σ !! l) →
          ApiBuilder.requests (ApiBuilder.new σ).1 ≠ l
          ∧ ApiBuilder.table_at (ApiBuilder.new σ).2 l = ApiBuilder.table_at σ l).
Proof.
  unfold ApiBuilder.new, ApiBuilder.table_at.
  cbn [fst snd ApiBuilder.requests].
  assert (Hfresh : σ !! fresh (dom σ) = None).
  { apply not_elem_of_dom. apply is_fresh. }
  split; [exact Hfresh|]. split; [by rewrite lookup_insert_eq|].
  intros l [table Hl].
  assert (Hne : fresh (dom σ) ≠ l) by (intros <-; congruence).
  split; [exact Hne|]. by rewrite lookup_insert_ne.
Qed.

(** X2: a registration returns the builder itself and writes one key of
    one table: the entry is found under the name of the method, every
    other key of the table and every other table are as they were. *)
Theorem method_writes_one_entry
    (this : ApiBuilder.instance) (σ : Heap) (m : ApiMethods)
    (s : ObjectSchema)
    (cb : ApiCallbackContext → NextApiResponse →
          Completion JsValue JsValue * NextApiResponse) :
  (ApiBuilder.method this m s cb σ).1 = this
  ∧ ApiBuilder.table_at (ApiBuilder.method this m s cb σ).2
      (ApiBuilder.requests this) !! ApiMethods_string m
    = Some {| schema := s; callback := cb |}
  ∧ (∀ key, key ≠ ApiMethods_string m →
       ApiBuilder.table_at (ApiBuilder.method this m s cb σ).2
         (ApiBuilder.requests this) !! key
       = ApiBuilder.table_at σ (ApiBuilder.requests this) !! key)
  ∧ (∀ l, l ≠ ApiBuilder.requests this →
       (ApiBuilder.method this m s cb σ).2 !! l = σ !! l).
Proof.
  split; [reflexivity|]. rewrite table_at_method.
  split; [apply lookup_insert_eq|].
  split.
  - intros key Hkey. by rewrite lookup_insert_ne.
  - intros l Hl. unfold ApiBuilder.method. cbn. by rewrite lookup_insert_ne.
Qed.

(** X3: registering a method twice leaves the heap as the second
    registration alone would: the last write wins. *)
Theorem last_registration_wins
    (this : ApiBuilder.instance) (σ : Heap) (m : ApiMethods)
    (s1 s2 : ObjectSchema)
    (cb1 cb2 : ApiCallbackContext → NextApiResponse →
               Completion JsValue JsValue * NextApiResponse) :
  (ApiBuilder.method this m s2 cb2 (ApiBuilder.method this m s1 cb1 σ).2).2
  = (ApiBuilder.method this m s2 cb2 σ).2.
Proof.
  unfold ApiBuilder.method at 1. cbn [snd].
  rewrite table_at_method, insert_insert_eq.
  unfold ApiBuilder.method. cbn [snd]. by rewrite insert_insert_eq.
Qed.

(** X4: registrations on different builders, or of different methods on
    one builder, commute. *)
Theorem registrations_commute
    (a b : ApiBuilder.instance) (σ : Heap) (m1 m2 : ApiMethods)
    (s1 s2 : ObjectSchema)
    (cb1 cb2 : ApiCallbackContext → NextApiResponse →
               Completion JsValue JsValue * NextApiResponse) :
  ApiBuilder.requests a ≠ ApiBuilder.requests b ∨ m1 ≠ m2 →
  (ApiBuilder.method b m2 s2 cb2 (ApiBuilder.method a m1 s1 cb1 σ).2).2
  = (ApiBuilder.method a m1 s1 cb1 (ApiBuilder.method b m2 s2 cb2 σ).2).2.
Proof.
  intros Hdiff.
  destruct (decide (ApiBuilder.requests a = ApiBuilder.requests b)) as [Heq|Hne].
  - destruct Hdiff as [Hdiff|Hm]; [done|].
    assert (Hs : ApiMethods_string m1 ≠ ApiMethods_string m2)
      by (intros E; by apply ApiMethods_string_inj in E).
    destruct a as [l], b as [l']. cbn in Heq. subst l'.
    unfold ApiBuilder.method at 1 3. cbn [snd ApiBuilder.requests].
    rewrite !(table_at_method {| ApiBuilder.requests := l |}).
    unfold ApiBuilder.method. cbn [snd ApiBuilder.requests].
    rewrite !insert_insert_eq. f_equal. by apply insert_insert_ne.
  - unfold ApiBuilder.method at 1 3. cbn [snd].
    rewrite (table_at_method_other a) by done.
    rewrite (table_at_method_other b) by done.
    unfold ApiBuilder.method. cbn [snd]. by apply insert_insert_ne.
Qed.

Lemma registrations_commute_witness :
  (ApiBuilder.post Example.api Example.id_schema Example.not_found
     (ApiBuilder.get Example.api Example.id_schema Example.send_ok
        Example.heap0).2).2
  = (ApiBuilder.get Example.api Example.id_schema Example.send_ok
       (ApiBuilder.post Example.api Example.id_schema Example.not_found
          Example.heap0).2).2.
Proof.
  apply (registrations_commute Example.api Example.api Example.heap0 GET POST).
  right. discriminate.
Defined.

(** X5: in every heap that the builder produced, the keys of every table
    are among GET, POST, PUT, DELETE and OPTIONS; none of them is a member
    name of [Object.prototype]. *)
Theorem built_tables_hold_method_names (σ : Heap) (l : nat)
    (table : gmap string RequestHandler) :
  built σ → σ !! l = Some table →
  dom table ⊆ list_to_set ApiMethods_names
  ∧ ∀ key, key ∈ Object_prototype_names → table !! key = None.
Proof.
  intros Hb Hl.
  assert (Hkeys : ∀ key, is_Some (table !! key) → key ∈ ApiMethods_names)
    by (intros key; by eapply built_table_keys).
  split.
  - intros key Hk. apply elem_of_dom in Hk. apply elem_of_list_to_set. auto.
  - intros key Hp. destruct (table !! key) eqn:Hk; [|done].
    assert (Hin : key ∈ ApiMethods_names) by (apply Hkeys; by rewrite Hk).
    exfalso. unfold ApiMethods_names, Object_prototype_names in *.
    repeat (apply elem_of_cons in Hin as [->|Hin];
            [by repeat (apply elem_of_cons in Hp as [Hp|Hp]; [discriminate|]);
                apply not_elem_of_nil in Hp|]).
    by apply not_elem_of_nil in Hin.
Qed.

Lemma built_heap2 : built Example.heap2.
Proof.
  unfold Example.heap2, Example.heap1, Example.heap0,
    ApiBuilder.put, ApiBuilder.post, ApiBuilder.get.
  repeat (apply built_method; [|eexists; reflexivity]).
  apply built_new, built_empty.
Defined.

Lemma built_tables_hold_method_names_witness :
  dom (ApiBuilder.table_at Example.heap2 (ApiBuilder.requests Example.api))
    ⊆ list_to_set ApiMethods_names.
Proof.
  exact (proj1 (built_tables_hold_method_names Example.heap2
                  (ApiBuilder.requests Example.api)
                  (ApiBuilder.table_at Example.heap2
                     (ApiBuilder.requests Example.api))
                  built_heap2 eq_refl)).
Defined.

(** X6: whatever was registered, a request whose method is none of the five
    names of [ApiMethods] and no member name of [Object.prototype] (a
    PATCH or HEAD request, a lower-case ["get"], a request without method)
    is answered 405 with [{ok:false}], and no validator or callback is
    called.  (This on the handle as the adapter hands it over, with
    nothing sent; on a handle whose headers are sent [res.json] throws.) *)
Theorem other_methods_are_answered_405
    (h : ApiBuilder.closure) (σ : Heap) (req0 : NextApiRequest)
    (res0 : NextApiResponse) :
  built σ →
  method_key req0 ∉ ApiMethods_names →
  method_key req0 ∉ Object_prototype_names →
  (headersSent res0 = false →
   ApiBuilder.handler h σ req0 res0
   = (Normal JsUndefined,
      respond 405 (JsObject {[ "ok" := JsBool false ]}) res0,
      [CallStatus 405; CallJson (JsObject {[ "ok" := JsBool false ]})]))
  ∧ (headersSent res0 = true →
     ApiBuilder.handler h σ req0 res0
     = (Throw ERR_HTTP_HEADERS_SENT, status 405 res0,
        [CallStatus 405; CallJson (JsObject {[ "ok" := JsBool false ]})])).
Proof.
  intros Hb Hm Hp.
  rewrite (handler_undefined_entry h σ req0 res0).
  - split; intros Hs; [by apply replied_fresh | by apply replied_sent].
  - apply get_property_undefined; [|exact Hp].
    by apply built_lookup_outside.
Qed.

Lemma other_methods_are_answered_405_witness :
  ApiBuilder.handler Example.late Example.heap2
    {| method := None; query := ∅; body := Example.with_id |} new_response
  = (Normal JsUndefined,
     respond 405 (JsObject {[ "ok" := JsBool false ]}) new_response,
     [CallStatus 405; CallJson (JsObject {[ "ok" := JsBool false ]})]).
Proof.
  refine (proj1 (other_methods_are_answered_405 Example.late Example.heap2
                   {| method := None; query := ∅; body := Example.with_id |}
                   new_response built_heap2 _ _) eq_refl).
  - refine (bool_decide_unpack _ _). vm_compute. exact I.
  - refine (bool_decide_unpack _ _). vm_compute. exact I.
Defined.

(** X7: whatever was registered, a request whose method is a member name
    of [Object.prototype] passes the guard for unregistered methods: it is
    answered 400 with a [TypeError] under [error], and no validator or
    callback is called.  (This on the handle as the adapter hands it over,
    with nothing sent; on a handle whose headers are sent [res.json]
    throws.) *)
Theorem prototype_names_are_answered_400
    (h : ApiBuilder.closure) (σ : Heap) (req0 : NextApiRequest)
    (res0 : NextApiResponse) :
  built σ →
  method_key req0 ∈ Object_prototype_names →
  ∃ message,
    (headersSent res0 = false →
     ApiBuilder.handler h σ req0 res0
     = (Normal JsUndefined,
        respond 400
          (JsObject (<[ "error" := JsErrorObject TypeError message ]>
                       {[ "ok" := JsBool false ]})) res0,
        [CallStatus 400;
         CallJson
           (JsObject (<[ "error" := JsErrorObject TypeError message ]>
                        {[ "ok" := JsBool false ]}))]))
    ∧ (headersSent res0 = true →
       ApiBuilder.handler h σ req0 res0
       = (Throw ERR_HTTP_HEADERS_SENT, status 400 res0,
          [CallStatus 400;
           CallJson
             (JsObject (<[ "error" := JsErrorObject TypeError message ]>
                          {[ "ok" := JsBool false ]}))])).
Proof.
  intros Hb Hp. eexists.
  rewrite (handler_inherited_entry h σ req0 res0 (method_key req0)).
  - split; intros Hs; [by apply replied_fresh | by apply replied_sent].
  - apply get_property_inherited; [|exact Hp].
    apply built_lookup_outside; [exact Hb|].
    intros Hin. unfold ApiMethods_names, Object_prototype_names in *.
    repeat (apply elem_of_cons in Hin as [Heq|Hin];
            [rewrite Heq in Hp;
             by repeat (apply elem_of_cons in Hp as [Hp|Hp]; [discriminate|]);
                apply not_elem_of_nil in Hp|]).
    by apply not_elem_of_nil in Hin.
Qed.

Lemma prototype_names_are_answered_400_witness :
  ∃ message,
    ApiBuilder.handler Example.late Example.heap2
      (Example.request "toString" ∅ ∅) new_response
    = (Normal JsUndefined,
       respond 400
         (JsObject (<[ "error" := JsErrorObject TypeError message ]>
                      {[ "ok" := JsBool false ]})) new_response,
       [CallStatus 400;
        CallJson
          (JsObject (<[ "error" := JsErrorObject TypeError message ]>
                       {[ "ok" := JsBool false ]}))]).
Proof.
  destruct (prototype_names_are_answered_400 Example.late Example.heap2
              (Example.request "toString" ∅ ∅) new_response built_heap2)
    as (message & Hfresh & _).
  - refine (bool_decide_unpack _ _). vm_compute. exact I.
  - exists message. exact (Hfresh eq_refl).
Defined.

(** X8: a registration changes nothing for the dispatch functions of other
    builders, nor for requests of other methods: they are handled as
    before. *)
Theorem registration_leaves_the_rest
    (h : ApiBuilder.closure) (this : ApiBuilder.instance) (σ : Heap)
    (m : ApiMethods) (s : ObjectSchema)
    (cb : ApiCallbackContext → NextApiResponse →
          Completion JsValue JsValue * NextApiResponse)
    (req0 : NextApiRequest) (res0 : NextApiResponse) :
  ApiBuilder.captured_requests h ≠ ApiBuilder.requests this
  ∨ method_key req0 ≠ ApiMethods_string m →
  ApiBuilder.handler h (ApiBuilder.method this m s cb σ).2 req0 res0
  = ApiBuilder.handler h σ req0 res0.
Proof.
  intros Hdiff. unfold ApiBuilder.handler.
  destruct (decide (ApiBuilder.captured_requests h = ApiBuilder.requests this))
    as [Heq|Hne].
  - destruct Hdiff as [Hdiff|Hkey]; [done|].
    apply invoke_reads_one_property, get_property_same_lookup.
    rewrite Heq, table_at_method. by rewrite lookup_insert_ne.
  - by rewrite table_at_method_other.
Qed.

Lemma registration_leaves_the_rest_witness :
  ApiBuilder.handler Example.late
    (ApiBuilder.post Example.api Example.id_schema Example.not_found
       Example.heap1).2
    Example.get_item new_response
  = ApiBuilder.handler Example.late Example.heap1 Example.get_item new_response.
Proof.
  apply (registration_leaves_the_rest Example.late Example.api Example.heap1
           POST Example.id_schema Example.not_found Example.get_item
           new_response).
  right. discriminate.
Defined.

(** X9: register, build, dispatch.  A request for the method just
    registered, whose merged input the schema accepts, reaches the
    callback with the validated input; when the callback completes, its
    result is the result of the dispatch function and the response handle
    is as the callback left it: the body of the dispatch function sets no
    status and sends nothing. *)
Theorem registered_callback_answers_itself
    (this : ApiBuilder.instance) (σ : Heap) (m : ApiMethods)
    (s : ObjectSchema)
    (cb : ApiCallbackContext → NextApiResponse →
          Completion JsValue JsValue * NextApiResponse)
    (req0 : NextApiRequest) (res0 res1 : NextApiResponse)
    (input0 result : JsValue) :
  method req0 = Some (ApiMethods_string m) →
  validate s (candidate_of req0) = Normal input0 →
  cb {| input := input0; req := req0 |} res0 = (Normal result, res1) →
  let σ1 := (ApiBuilder.method this m s cb σ).2 in
  let h := (ApiBuilder.build (ApiBuilder.method this m s cb σ).1 σ1).1 in
  ApiBuilder.handler h σ1 req0 res0
    = (Normal result, res1,
       [CallValidate (candidate_of req0);
        CallCallback {| input := input0; req := req0 |}])
  ∧ statuses_set (ApiBuilder.handler h σ1 req0 res0).2 = []
  ∧ bodies_sent (ApiBuilder.handler h σ1 req0 res0).2 = [].
Proof.
  intros Hm Hv Hc σ1 h.
  assert (Hrun : ApiBuilder.handler h σ1 req0 res0
            = (Normal result, res1,
               [CallValidate (candidate_of req0);
                CallCallback {| input := input0; req := req0 |}])).
  { apply (handler_callback_returns h σ1 req0 res0
             {| schema := s; callback := cb |}); [|exact Hv|exact Hc].
    subst h σ1. cbn [ApiBuilder.build ApiBuilder.method fst
                       ApiBuilder.captured_requests].
    rewrite table_at_method. unfold method_key. rewrite Hm. cbn.
    apply lookup_insert_eq. }
  split; [exact Hrun|]. by rewrite Hrun.
Qed.

Lemma registered_callback_answers_itself_witness :
  ApiBuilder.handler
    (ApiBuilder.build
       (ApiBuilder.get Example.api Example.id_schema Example.send_ok
          Example.heap0).1
       (ApiBuilder.get Example.api Example.id_schema Example.send_ok
          Example.heap0).2).1
    (ApiBuilder.get Example.api Example.id_schema Example.send_ok
       Example.heap0).2
    Example.get_item new_response
  = (Normal JsUndefined,
     respond 200 (JsObject ApiReturns.ok) new_response,
     [CallValidate (candidate_of Example.get_item);
      CallCallback {| input := JsObject Example.with_id;
                      req := Example.get_item |}]).
Proof.
  exact (proj1 (registered_callback_answers_itself Example.api Example.heap0
                  GET Example.id_schema Example.send_ok Example.get_item
                  new_response
                  (respond 200 (JsObject ApiReturns.ok) new_response)
                  (JsObject Example.with_id) JsUndefined
                  eq_refl eq_refl eq_refl)).
Defined.

(** * Further properties of the dispatch function *)

(** The paths through the body of the dispatch function, one goal each. *)
Ltac dispatch_cases h σ req0 res0 :=
  let Hreg := fresh "Hreg" in
  let Hv := fresh "Hv" in
  let Hc := fresh "Hc" in
  let Hp := fresh "Hp" in
  destruct (ApiBuilder.table_at σ (ApiBuilder.captured_requests h)
              !! method_key req0) as [?request|] eqn:Hreg;
  [ destruct (validate (schema request) (candidate_of req0))
      as [?input0|?error] eqn:Hv;
    [ destruct (callback request {| input := input0; req := req0 |} res0)
        as [[?result|?error] ?res1] eqn:Hc;
      [ rewrite (handler_callback_returns h σ req0 res0 request Hreg
                   input0 Hv result res1 Hc) in *
      | rewrite (handler_callback_throws h σ req0 res0 request Hreg
                   input0 Hv error res1 Hc) in *;
        destruct (instanceof error NotFoundControllerError);
        [|destruct (instanceof error NotImplementedControllerError)] ]
    | rewrite (handler_validation_fails h σ req0 res0 request Hreg
                 error Hv) in * ]
  | destruct (bool_decide (method_key req0 ∈ Object_prototype_names)) eqn:Hp;
    [ rewrite (handler_inherited_entry h σ req0 res0 (method_key req0)) in *
        by (unfold get_property; by rewrite Hreg, Hp)
    | rewrite (handler_undefined_entry h σ req0 res0) in *
        by (unfold get_property; by rewrite Hreg, Hp) ] ].


(** X11: every body that the dispatch function itself sends is an object
    with [ok:false]; it has an [error] field exactly when the status is
    400 and a [message] field exactly when the status is 404. *)
Theorem layer_bodies_report_failure
    (h : ApiBuilder.closure) (σ : Heap) (req0 : NextApiRequest)
    (res0 : NextApiResponse) (b : JsValue) :
  b ∈ bodies_sent (ApiBuilder.handler h σ req0 res0).2 →
  ∃ props,
    b = JsObject props
    ∧ props !! "ok" = Some (JsBool false)
    ∧ (is_Some (props !! "error")
       ↔ statuses_set (ApiBuilder.handler h σ req0 res0).2 = [400])
    ∧ (is_Some (props !! "message")
       ↔ statuses_set (ApiBuilder.handler h σ req0 res0).2 = [404]).
Proof.
  intros Hin. dispatch_cases h σ req0 res0; rewrite ?replied_log in *;
    cbn in Hin.
  all: try (by apply not_elem_of_nil in Hin).
  all: apply list_elem_of_singleton in Hin; subst b.
  all: eexists; split; [reflexivity|]; split; [reflexivity|].
  all: split; (split; [intros [v Hv']; vm_compute in Hv'; try discriminate;
                        reflexivity
                      | intros Hs; vm_compute in Hs; try discriminate;
                        eexists; reflexivity]).
Qed.

Lemma layer_bodies_report_failure_witness :
  ∃ props,
    JsObject (<[ "error" := Example.required_id ]> ApiReturns.error)
      = JsObject props
    ∧ props !! "ok" = Some (JsBool false)
    ∧ (is_Some (props !! "error")
       ↔ statuses_set
           (ApiBuilder.handler Example.late Example.heap2
              (Example.request "GET" ∅ ∅) new_response).2 = [400])
    ∧ (is_Some (props !! "message")
       ↔ statuses_set
           (ApiBuilder.handler Example.late Example.heap2
              (Example.request "GET" ∅ ∅) new_response).2 = [404]).
Proof.
  apply (layer_bodies_report_failure Example.late Example.heap2
           (Example.request "GET" ∅ ∅) new_response).
  apply list_elem_of_here.
Defined.





(** * Further properties of the fetch helpers *)

Module FetchEdges.
Import Fetch.

Section Platform.

Variable fetch : string → RequestInit → Completion JsValue Response.
Variable JSON_stringify : JsValue → Completion JsValue (option string).

(** X14: when [JSON.stringify] throws, [fetchPost] and [fetchPut] are
    rejected with its error, unwrapped, and no request is made: the
    outcome is the same over every [fetch]. *)
Theorem serialization_failure_stops_the_request
    (url : string) (data error : JsValue)
    (fetch' : string → RequestInit → Completion JsValue Response) :
  JSON_stringify data = Throw error →
  fetchPost fetch JSON_stringify url data = Throw (Propagated error)
  ∧ fetchPut fetch JSON_stringify url data = Throw (Propagated error)
  ∧ fetchPost fetch' JSON_stringify url data
    = fetchPost fetch JSON_stringify url data
  ∧ fetchPut fetch' JSON_stringify url data
    = fetchPut fetch JSON_stringify url data.
Proof.
  intros Hs. unfold fetchPost, fetchPut, fetchPostOrPut. by rewrite Hs.
Qed.

(** X15: an error of the platform passes through unwrapped.  When [fetch]
    itself is rejected, so is the helper, with the same error; when the
    status is below 300 and [response.json()] is rejected, so is the
    helper, with the same error.  Neither becomes a [FetchRequestError]. *)
Theorem platform_errors_pass_through (url : string) (error : JsValue) :
  let outcome (answer : Completion JsValue Response)
              (helper : Completion Rejection JsValue) :=
    (answer = Throw error → helper = Throw (Propagated error))
    ∧ (∀ response,
         answer = Normal response → (status response < 300)%Z →
         json response = Throw error → helper = Throw (Propagated error)) in
  outcome
    (fetch url {| init_method := "GET";
                  init_headers :=
                    [("Accept", "application/json");
                     ("Content-Type", "application/json;charset=UTF-8")];
                  init_body := None |})
    (fetchGet fetch url)
  ∧ (∀ m data text,
       JSON_stringify data = Normal text →
       outcome
         (fetch url {| init_method := PostOrPut_string m;
                       init_headers :=
                         [("Accept", "application/json");
                          ("Content-Type", "application/json;charset=UTF-8")];
                       init_body := text |})
         (fetchPostOrPut fetch JSON_stringify m url data)).
Proof.
  intros outcome. subst outcome. cbv beta. split.
  - unfold fetchGet. split.
    + by intros ->.
    + intros response -> Hlt Hj.
      destruct (Z.geb_spec (status response) 300); [lia|]. by rewrite Hj.
  - intros m data text Hs. unfold fetchPostOrPut. rewrite Hs. split.
    + by intros ->.
    + intros response -> Hlt Hj.
      destruct (Z.geb_spec (status response) 300); [lia|]. by rewrite Hj.
Qed.

(** X16: a helper returns a value only if the request was answered with a
    status below 300 and a body that decodes to this value. *)
Theorem success_means_decoded_body_below_300
    (url : string) (v : JsValue) :
  (fetchGet fetch url = Normal v →
   ∃ response,
     fetch url {| init_method := "GET";
                  init_headers :=
                    [("Accept", "application/json");
                     ("Content-Type", "application/json;charset=UTF-8")];
                  init_body := None |} = Normal response
     ∧ (status response < 300)%Z ∧ json response = Normal v)
  ∧ (∀ m data,
       fetchPostOrPut fetch JSON_stringify m url data = Normal v →
       ∃ text response,
         JSON_stringify data = Normal text
         ∧ fetch url {| init_method := PostOrPut_string m;
                        init_headers :=
                          [("Accept", "application/json");
                           ("Content-Type", "application/json;charset=UTF-8")];
                        init_body := text |} = Normal response
         ∧ (status response < 300)%Z ∧ json response = Normal v).
Proof.
  split.
  - unfold fetchGet.
    destruct (fetch url _) as [response|error] eqn:Hf; [|discriminate].
    destruct (Z.geb_spec (status response) 300) as [Hge|Hlt]; [discriminate|].
    destruct (json response) as [v'|error] eqn:Hj; [|discriminate].
    intros [= ->]. by exists response.
  - intros m data. unfold fetchPostOrPut.
    destruct (JSON_stringify data) as [text|error]; [|discriminate].
    destruct (fetch url _) as [response|error] eqn:Hf; [|discriminate].
    destruct (Z.geb_spec (status response) 300) as [Hge|Hlt]; [discriminate|].
    destruct (json response) as [v'|error] eqn:Hj; [|discriminate].
    intros [= ->]. by exists text, response.
Qed.

(** X17: a helper fails with a [FetchRequestError] only for a response that
    [fetch] returned with a status of 300 or more; the error carries that
    response, and its message is ["Error fetching from "] followed by the
    URL. *)
Theorem fetch_request_error_names_its_response
    (url : string) (response : Response) (message : string) :
  (fetchGet fetch url = Throw (FetchRequestError response message) →
   fetch url {| init_method := "GET";
                init_headers :=
                  [("Accept", "application/json");
                   ("Content-Type", "application/json;charset=UTF-8")];
                init_body := None |} = Normal response
   ∧ (300 ≤ status response)%Z
   ∧ message = "Error fetching from " ++ url)
  ∧ (∀ m data,
       fetchPostOrPut fetch JSON_stringify m url data
         = Throw (FetchRequestError response message) →
       ∃ text,
         JSON_stringify data = Normal text
         ∧ fetch url {| init_method := PostOrPut_string m;
                        init_headers :=
                          [("Accept", "application/json");
                           ("Content-Type", "application/json;charset=UTF-8")];
                        init_body := text |} = Normal response
         ∧ (300 ≤ status response)%Z
         ∧ message = "Error fetching from " ++ url).
Proof.
  split.
  - unfold fetchGet.
    destruct (fetch url _) as [response'|error] eqn:Hf; [|discriminate].
    destruct (Z.geb_spec (status response') 300) as [Hge|Hlt].
    + intros [= -> ->]. done.
    + destruct (json response'); discriminate.
  - intros m data. unfold fetchPostOrPut.
    destruct (JSON_stringify data) as [text|error]; [|discriminate].
    destruct (fetch url _) as [response'|error] eqn:Hf; [|discriminate].
    destruct (Z.geb_spec (status response') 300) as [Hge|Hlt].
    + intros [= -> ->]. by exists text.
    + destruct (json response'); discriminate.
Qed.

End Platform.

(** A serializer that throws, as [JSON.stringify] does on a cyclic value. *)
Lemma serialization_failure_stops_the_request_witness :
  fetchPost (mock_fetch (answer 200))
    (λ _, Throw (JsErrorObject TypeError "cyclic object value"))
    "/api/items" JsNull
  = Throw (Propagated (JsErrorObject TypeError "cyclic object value")).
Proof.
  exact (proj1 (serialization_failure_stops_the_request
                  (mock_fetch (answer 200))
                  (λ _, Throw (JsErrorObject TypeError "cyclic object value"))
                  "/api/items" JsNull
                  (JsErrorObject TypeError "cyclic object value")
                  (mock_fetch (answer 500)) eq_refl)).
Defined.

Lemma platform_errors_pass_through_witness :
  fetchGet (λ _ _, Throw (JsErrorObject TypeError "fetch failed")) "/api/items"
  = Throw (Propagated (JsErrorObject TypeError "fetch failed")).
Proof.
  exact (proj1 (proj1 (platform_errors_pass_through
                         (λ _ _, Throw (JsErrorObject TypeError "fetch failed"))
                         mock_stringify "/api/items"
                         (JsErrorObject TypeError "fetch failed")))
               eq_refl).
Defined.

Lemma success_means_decoded_body_below_300_witness :
  ∃ response,
    mock_fetch (answer 299) "/api/items"
      {| init_method := "GET";
         init_headers :=
           [("Accept", "application/json");
            ("Content-Type", "application/json;charset=UTF-8")];
         init_body := None |} = Normal response
    ∧ (status response < 300)%Z
    ∧ json response = Normal (JsObject ApiReturns.ok).
Proof.
  exact (proj1 (success_means_decoded_body_below_300
                  (mock_fetch (answer 299)) mock_stringify "/api/items"
                  (JsObject ApiReturns.ok)) eq_refl).
Defined.

Lemma fetch_request_error_names_its_response_witness :
  ∃ text,
    mock_stringify JsNull = Normal text
    ∧ mock_fetch (answer 503) "/api/items"
        {| init_method := "PUT";
           init_headers :=
             [("Accept", "application/json");
              ("Content-Type", "application/json;charset=UTF-8")];
           init_body := text |} = Normal (answer 503)
    ∧ (300 ≤ status (answer 503))%Z
    ∧ "Error fetching from /api/items" = "Error fetching from " ++ "/api/items".
Proof.
  exact (proj2 (fetch_request_error_names_its_response
                  (mock_fetch (answer 503)) mock_stringify "/api/items"
                  (answer 503) "Error fetching from /api/items")
               PUT JsNull eq_refl).
Defined.

End FetchEdges.

(** * Properties of the item route *)

Module ItemRoute.
Import ItemController.

Section Client.

Variable api_get : string → Completion JsValue AxiosResponse.

(** X18: when the product service answers, the route answers 200 with the
    [data] of that answer as the body, whatever the request is: its
    method, query and body are not looked at.  (This on the handle as the
    adapter hands it over, with nothing sent; on a handle whose headers
    are sent [res.json] throws.) *)
Theorem route_answers_200_with_the_data
    (req0 : NextApiRequest) (res0 : NextApiResponse)
    (response : AxiosResponse) :
  api_get "products/1" = Normal response →
  (headersSent res0 = false →
   invoke api_get req0 res0
   = (Normal JsUndefined, respond 200 (data response) res0,
      [CallStatus 200; CallJson (data response)]))
  ∧ (headersSent res0 = true →
     invoke api_get req0 res0
     = (Throw ERR_HTTP_HEADERS_SENT, status 200 res0,
        [CallStatus 200; CallJson (data response)])).
Proof.
  intros Hget.
  assert (Hrun : invoke api_get req0 res0
                 = replied 200 (data response) res0 []).
  { unfold invoke, handler, get. rewrite Hget. run_exchange.
    by destruct (json _ _) as [[[]|] ?]. }
  rewrite Hrun.
  split; intros Hs; [by apply replied_fresh | by apply replied_sent].
Qed.

(** X19: the route has no [try]: when the product service fails, the
    promise of the route is rejected with that error, no status is set
    and nothing is sent on the response handle. *)
Theorem route_lets_the_error_through
    (req0 : NextApiRequest) (res0 : NextApiResponse) (error : JsValue) :
  api_get "products/1" = Throw error →
  invoke api_get req0 res0 = (Throw error, res0, []).
Proof.
  intros Hget. unfold invoke, handler, get. rewrite Hget.
  destruct res0. reflexivity.
Qed.

End Client.

Lemma route_answers_200_with_the_data_witness :
  invoke serving (Example.request "DELETE" ∅ Example.with_id) new_response
  = (Normal JsUndefined, respond 200 product new_response,
     [CallStatus 200; CallJson product]).
Proof.
  exact (proj1 (route_answers_200_with_the_data serving
                  (Example.request "DELETE" ∅ Example.with_id) new_response
                  {| data := product |} eq_refl) eq_refl).
Defined.

Lemma route_lets_the_error_through_witness :
  invoke down Example.get_item new_response
  = (Throw (JsErrorObject OtherError "connect ECONNREFUSED"), new_response, []).
Proof.
  exact (route_lets_the_error_through down Example.get_item new_response
           (JsErrorObject OtherError "connect ECONNREFUSED") eq_refl).
Defined.

End ItemRoute.
